(** * ui-next/scripts/find-free-port.py

    A shallow embedding of the port prober and the properties of its
    runs.  The script is sixteen lines of Python: a [for] loop of 100
    iterations, each drawing a port with [random.randint], opening a
    TCP socket inside [with closing(...)], setting [SO_REUSEADDR],
    trying to [bind] it to 127.0.0.1 and, when the bind went through,
    printing the port and raising [SystemExit(0)].

    The script talks to two things it does not control, the random
    source and the kernel.  Both are part of the [world] the program
    runs in: the world holds what they are going to answer, the table of
    the sockets the process has open, what was written to standard
    output, and a trace of the calls made so far, each with the socket
    table as it stood right after the call. *)

From Stdlib Require Import ZArith NArith List String Ascii Bool Lia.
From Stdlib Require Import DecimalString DecimalZ.
Import ListNotations.
Open Scope Z_scope.

(** ** The world *)

(** What a socket of the process is bound to: nothing yet, or an
    address and a port. *)
Definition binding := option (string * Z).

(** The open sockets of the process, by file descriptor. *)
Definition socktable := list (nat * binding).

Inductive event : Type :=
| ERandint (v : Z)                      (* random.randint returned v *)
| ESocket (r : option nat)              (* socket.socket(): a descriptor, or OSError *)
| ESetsockopt (fd : nat) (ok : bool)    (* s.setsockopt(...) *)
| EBind (fd : nat) (port : Z) (ok : bool)   (* s.bind((addr, port)) *)
| EClose (fd : nat)                     (* s.close() *)
| EPrint (v : Z).                       (* print(v) *)

(** One entry of the trace: the call, and the socket table after it. *)
Definition entry := (event * socktable)%type.

Record world : Type := mkWorld {
  entropy : nat -> N;            (* raw values the random source will deliver *)
  os_socket : nat -> bool;       (* will the coming socket() calls succeed *)
  os_setsockopt : nat -> bool;   (* will the coming setsockopt() calls succeed *)
  os_bind : nat -> Z -> bool;    (* will the coming bind() calls succeed, per port *)
  next_fd : nat;                 (* descriptor the kernel hands out next *)
  socks : socktable;
  stdout : string;
  trace : list entry
}.

(** Dropping the answer that was just consumed. *)
Definition behead {A : Type} (f : nat -> A) : nat -> A := fun k => f (S k).

(** ** Exceptions and control flow *)

Inductive exn : Type :=
| OSError
| ValueError
| SystemExit (code : Z).

(** How a statement ends: normally, by [continue], or by an exception. *)
Inductive signal (A : Type) : Type :=
| Normal (a : A)
| Continue
| Raise (e : exn).
Arguments Normal {A} a.
Arguments Continue {A}.
Arguments Raise {A} e.

Definition M (A : Type) : Type := world -> signal A * world.

Definition ret {A : Type} (a : A) : M A := fun w => (Normal a, w).

Definition bind {A B : Type} (m : M A) (k : A -> M B) : M B := fun w =>
  match m w with
  | (Normal a, w1) => k a w1
  | (Continue, w1) => (Continue, w1)
  | (Raise e, w1) => (Raise e, w1)
  end.

Declare Scope py_scope.
Delimit Scope py_scope with py.
Notation "x <- m ;; k" := (bind m (fun x => k))
  (at level 61, m at next level, right associativity) : py_scope.
Notation "m ;; k" := (bind m (fun _ => k))
  (at level 61, right associativity) : py_scope.
Open Scope py_scope.

Definition raise {A : Type} (e : exn) : M A := fun w => (Raise e, w).

Definition continue {A : Type} : M A := fun w => (Continue, w).

(** [str] of a Python int: decimal digits, with a minus sign when negative. *)
Definition py_str (z : Z) : string := NilZero.string_of_int (Z.to_int z).

Definition newline : string := String (ascii_of_nat 10) EmptyString.

(** ** The library calls the script makes *)

Definition record (e : event) (w : world) : world :=
  mkWorld (entropy w) (os_socket w) (os_setsockopt w) (os_bind w)
          (next_fd w) (socks w) (stdout w) (trace w ++ [(e, socks w)]).

Definition set_socks (t : socktable) (w : world) : world :=
  mkWorld (entropy w) (os_socket w) (os_setsockopt w) (os_bind w)
          (next_fd w) t (stdout w) (trace w).

(** [random.randint(a, b)]: [a + _randbelow(b - a + 1)], a value N with
    a <= N <= b; ValueError when the range is empty.  The value below
    the width is the next raw value of the source reduced modulo the
    width. *)
Definition random_randint (a b : Z) : M Z := fun w =>
  if b - a + 1 <=? 0 then (Raise ValueError, w)
  else
    let v := a + Z.of_N (entropy w 0%nat) mod (b - a + 1) in
    (Normal v,
     record (ERandint v)
       (mkWorld (behead (entropy w)) (os_socket w) (os_setsockopt w) (os_bind w)
                (next_fd w) (socks w) (stdout w) (trace w))).

(** [socket.socket(socket.AF_INET, socket.SOCK_STREAM)]: a new unbound
    socket, or OSError. *)
Definition socket_socket : M nat := fun w =>
  let w1 := mkWorld (entropy w) (behead (os_socket w)) (os_setsockopt w) (os_bind w)
                    (next_fd w) (socks w) (stdout w) (trace w) in
  if os_socket w 0%nat then
    let fd := next_fd w in
    (Normal fd,
     record (ESocket (Some fd))
       (mkWorld (entropy w1) (os_socket w1) (os_setsockopt w1) (os_bind w1)
                (S fd) ((fd, None) :: socks w1) (stdout w1) (trace w1)))
  else (Raise OSError, record (ESocket None) w1).

Definition is_open (fd : nat) (t : socktable) : bool :=
  existsb (fun s => Nat.eqb (fst s) fd) t.

(** [s.setsockopt(socket.SOL_SOCKET, socket.SO_REUSEADDR, 1)]: OSError
    when the kernel refuses, or when [s] is not an open socket. *)
Definition setsockopt (s : nat) : M unit := fun w =>
  if is_open s (socks w) then
    let w1 := mkWorld (entropy w) (os_socket w) (behead (os_setsockopt w)) (os_bind w)
                      (next_fd w) (socks w) (stdout w) (trace w) in
    if os_setsockopt w 0%nat then (Normal tt, record (ESetsockopt s true) w1)
    else (Raise OSError, record (ESetsockopt s false) w1)
  else (Raise OSError, record (ESetsockopt s false) w).

Definition set_binding (fd : nat) (b : binding) (t : socktable) : socktable :=
  map (fun s => if Nat.eqb (fst s) fd then (fd, b) else s) t.

(** [s.bind((addr, port))]: the socket becomes bound, or OSError. *)
Definition sock_bind (s : nat) (address : string * Z) : M unit := fun w =>
  let port := snd address in
  if is_open s (socks w) then
    let w1 := mkWorld (entropy w) (os_socket w) (os_setsockopt w) (behead (os_bind w))
                      (next_fd w) (socks w) (stdout w) (trace w) in
    if os_bind w 0%nat port then
      (Normal tt, record (EBind s port true)
                    (set_socks (set_binding s (Some address) (socks w1)) w1))
    else (Raise OSError, record (EBind s port false) w1)
  else (Raise OSError, record (EBind s port false) w).

(** [s.close()]: the descriptor leaves the table; closing a socket that
    is not open does nothing. *)
Definition sock_close (s : nat) : M unit := fun w =>
  (Normal tt,
   record (EClose s)
     (set_socks (filter (fun x => negb (Nat.eqb (fst x) s)) (socks w)) w)).

(** [print(v)]: [str(v)] and a newline go to standard output.  The
    stream's buffer is not modelled: a value counts as printed when
    [print] is called. *)
Definition print (v : Z) : M unit := fun w =>
  (Normal tt,
   record (EPrint v)
     (mkWorld (entropy w) (os_socket w) (os_setsockopt w) (os_bind w)
              (next_fd w) (socks w) (stdout w ++ py_str v ++ newline) (trace w))).

(** ** The statements the script uses *)

(** [with closing(mk) as s: body]: [mk] is evaluated first, and an
    exception there leaves the statement before anything is entered;
    once [s] exists, [s.close()] runs however [body] ends, and the way
    [body] ended is kept ([closing.__exit__] swallows nothing). *)
Definition with_closing {A : Type} (mk : M nat) (body : nat -> M A) : M A := fun w =>
  match mk w with
  | (Normal s, w1) =>
      let (r, w2) := body s w1 in
      let (_, w3) := sock_close s w2 in
      (r, w3)
  | (Continue, w1) => (Continue, w1)
  | (Raise e, w1) => (Raise e, w1)
  end.

(** [try: body / except OSError: handler]. *)
Definition try_except_OSError {A : Type} (body handler : M A) : M A := fun w =>
  match body w with
  | (Raise OSError, w1) => handler w1
  | other => other
  end.

(** [for i in range(i, i + n): body]: [continue] moves on to the next
    iteration, an exception leaves the loop. *)
Fixpoint for_from (i n : nat) (body : nat -> M unit) : M unit := fun w =>
  match n with
  | O => (Normal tt, w)
  | S n' =>
      match body i w with
      | (Raise e, w1) => (Raise e, w1)
      | (_, w1) => for_from (S i) n' body w1
      end
  end.

Definition for_range (n : nat) (body : nat -> M unit) : M unit := for_from 0 n body.

(** ** The script *)

Definition LOW : Z := 20000.
Definition HIGH : Z := 60000.
Definition LOOPBACK : string := "127.0.0.1".

(** Lines 7 to 15, the body of the loop. *)
Definition loop_body (_ : nat) : M unit :=
  port <- random_randint LOW HIGH ;;
  with_closing socket_socket (fun s =>
    setsockopt s ;;
    try_except_OSError (sock_bind s (LOOPBACK, port)) continue ;;
    print port ;;
    raise (SystemExit 0)).

(** Lines 6 to 16, with the number of iterations as a parameter. *)
Definition probe (attempts : nat) : M unit :=
  for_range attempts loop_body ;;
  print 0.

(** The script: 100 iterations. *)
Definition main : M unit := probe 100.

(** ** Running the script as a process *)

(** What the random source and the kernel will answer during one run. *)
Record env : Type := Env {
  rnd : nat -> N;
  sock_ok : nat -> bool;
  sso_ok : nat -> bool;
  bind_ok : nat -> Z -> bool
}.

(** The process starts with descriptors 0, 1 and 2 taken by the
    standard streams, no socket, and nothing written. *)
Definition boot (e : env) : world :=
  mkWorld (rnd e) (sock_ok e) (sso_ok e) (bind_ok e) 3%nat [] EmptyString [].

(** Exit status of the interpreter: 0 when the module runs to its end,
    the code of an uncaught [SystemExit], 1 for any other uncaught
    exception (its traceback goes to standard error).  [continue]
    cannot reach the top level: the loop absorbs it. *)
Definition exit_status {A : Type} (r : signal A) : Z :=
  match r with
  | Normal _ => 0
  | Raise (SystemExit code) => code
  | Raise _ => 1
  | Continue => 1
  end.

Definition run (e : env) : signal unit * world := main (boot e).

Definition status (e : env) : Z := exit_status (fst (run e)).
Definition final (e : env) : world := snd (run e).
Definition output (e : env) : string := stdout (final e).
Definition history (e : env) : list entry := trace (final e).

(** ** Reading a trace *)

Definition draws (t : list entry) : list Z :=
  flat_map (fun x => match fst x with ERandint v => [v] | _ => [] end) t.

Definition binds (t : list entry) : list bool :=
  flat_map (fun x => match fst x with EBind _ _ ok => [ok] | _ => [] end) t.

Definition prints (t : list entry) : list Z :=
  flat_map (fun x => match fst x with EPrint v => [v] | _ => [] end) t.

Definition opens (t : list entry) : list nat :=
  flat_map (fun x => match fst x with ESocket (Some fd) => [fd] | _ => [] end) t.

Definition closes (t : list entry) : list nat :=
  flat_map (fun x => match fst x with EClose fd => [fd] | _ => [] end) t.

(** Does the table hold a socket bound to [port] on the loopback address. *)
Definition holds_port (t : socktable) (port : Z) : bool :=
  existsb (fun s => match snd s with
                    | Some (a, p) => String.eqb a LOOPBACK && (p =? port)
                    | None => false
                    end) t.

(** Number of line ends in a string. *)
Fixpoint count_newlines (s : string) : nat :=
  match s with
  | EmptyString => O
  | String c s' => ((if Ascii.eqb c (ascii_of_nat 10) then 1 else 0) + count_newlines s')%nat
  end.

(** ** Sample runs *)

Definition all_free : env :=
  Env (fun _ => 0%N) (fun _ => true) (fun _ => true) (fun _ _ => true).

Definition all_taken : env :=
  Env (fun k => N.of_nat k) (fun _ => true) (fun _ => true) (fun _ _ => false).

Definition third_free : env :=
  Env (fun k => (40000 + 17 * N.of_nat k)%N) (fun _ => true) (fun _ => true)
      (fun k _ => Nat.eqb k 2).

Definition no_socket : env :=
  Env (fun _ => 5%N) (fun k => negb (Nat.eqb k 1)) (fun _ => true) (fun _ _ => false).

Definition no_sockopt : env :=
  Env (fun _ => 5%N) (fun _ => true) (fun _ => false) (fun _ _ => true).

Definition never_a_socket : env :=
  Env (fun k => (5 + 40001 * N.of_nat k)%N) (fun _ => false) (fun _ => true)
      (fun _ _ => false).

(** ** One iteration, summarised *)

(** The four ways an iteration can go, read off the answers the world
    holds for it. *)
Inductive fate : Type :=
| Crash_socket        (* socket() raises *)
| Crash_setsockopt    (* setsockopt() raises *)
| Retry               (* bind() raises *)
| Found.              (* bind() goes through *)

(** The port iteration [k] from now will draw. *)
Definition drawn_at (w : world) (k : nat) : Z :=
  LOW + Z.of_N (entropy w k) mod (HIGH - LOW + 1).

Definition fate_at (w : world) (k : nat) : fate :=
  if os_socket w k then
    if os_setsockopt w k then
      if os_bind w k (drawn_at w k) then Found else Retry
    else Crash_setsockopt
  else Crash_socket.

Definition verdict (f : fate) : signal unit :=
  match f with
  | Crash_socket | Crash_setsockopt => Raise OSError
  | Retry => Continue
  | Found => Raise (SystemExit 0)
  end.

(** The calls of the coming iteration, with the socket table after each. *)
Definition steps (w : world) : list entry :=
  let p := drawn_at w 0 in
  let fd := next_fd w in
  match fate_at w 0 with
  | Crash_socket =>
      [(ERandint p, []); (ESocket None, [])]
  | Crash_setsockopt =>
      [(ERandint p, []); (ESocket (Some fd), [(fd, None)]);
       (ESetsockopt fd false, [(fd, None)]); (EClose fd, [])]
  | Retry =>
      [(ERandint p, []); (ESocket (Some fd), [(fd, None)]);
       (ESetsockopt fd true, [(fd, None)]); (EBind fd p false, [(fd, None)]);
       (EClose fd, [])]
  | Found =>
      [(ERandint p, []); (ESocket (Some fd), [(fd, None)]);
       (ESetsockopt fd true, [(fd, None)]);
       (EBind fd p true, [(fd, Some (LOOPBACK, p))]);
       (EPrint p, [(fd, Some (LOOPBACK, p))]); (EClose fd, [])]
  end.

(** The world the coming iteration leaves behind. *)
Definition after (w : world) : world :=
  let f := fate_at w 0 in
  mkWorld (behead (entropy w))
          (behead (os_socket w))
          (match f with Crash_socket => os_setsockopt w | _ => behead (os_setsockopt w) end)
          (match f with Retry | Found => behead (os_bind w) | _ => os_bind w end)
          (match f with Crash_socket => next_fd w | _ => S (next_fd w) end)
          []
          (match f with Found => stdout w ++ py_str (drawn_at w 0) ++ newline | _ => stdout w end)
          (trace w ++ steps w).

(** The world after [k] iterations. *)
Definition retries (k : nat) (w : world) : world := Nat.iter k after w.

(** The fate of iteration [k] of a run. *)
Definition plan (e : env) (k : nat) : fate := fate_at (boot e) k.

(** The port iteration [k] of a run draws. *)
Definition draw (e : env) (k : nat) : Z := drawn_at (boot e) k.

(** The first [k] iterations from now all end in a failed bind. *)
Definition retrying (k : nat) (w : world) : Prop :=
  forall j, (j < k)%nat -> fate_at w j = Retry.

(** The calls of the first [k] iterations. *)
Fixpoint calls (k : nat) (w : world) : list entry :=
  match k with
  | O => []
  | S k' => steps w ++ calls k' (after w)
  end.

(** What every entry of a trace of the script satisfies: the socket
    table is empty when an iteration starts and after a close, holds
    the one probe socket in between, and a port is printed while that
    socket is bound to it. *)
Definition entry_ok (x : entry) : Prop :=
  match x with
  | (ERandint v, t) => t = [] /\ LOW <= v <= HIGH
  | (ESocket (Some fd), t) => t = [(fd, None)]
  | (ESocket None, t) => t = []
  | (ESetsockopt fd _, t) => t = [(fd, None)]
  | (EBind fd p true, t) => t = [(fd, Some (LOOPBACK, p))] /\ LOW <= p <= HIGH
  | (EBind fd p false, t) => t = [(fd, None)] /\ LOW <= p <= HIGH
  | (EClose _, t) => t = []
  | (EPrint v, t) =>
      (v = 0 /\ t = []) \/
      (LOW <= v <= HIGH /\ exists fd, t = [(fd, Some (LOOPBACK, v))])
  end.

(** ** Outcome as a function of what was observed *)

(** Output and exit status, told from the ports drawn and the outcomes
    of the binds alone. *)
Definition judge (ds : list Z) (bs : list bool) : string * Z :=
  if existsb (fun b => b) bs then ((py_str (last ds 0) ++ newline)%string, 0)
  else if Nat.eqb (List.length bs) 100 then ((py_str 0 ++ newline)%string, 0)
  else (EmptyString, 1).

(** What standard output holds after printing the values [vs]. *)
Definition lines (vs : list Z) : string :=
  fold_right (fun v rest => (py_str v ++ newline ++ rest)%string) EmptyString vs.

(** ** Runs that complete *)

(** A run found a port when one of its binds went through; it exhausted
    its attempts when it made 100 binds and all of them failed. *)
Definition found (e : env) : Prop := In true (binds (history e)).

Definition exhausted (e : env) : Prop := binds (history e) = repeat false 100.

(** The ports on which a bind was attempted, in order. *)
Definition tried (t : list entry) : list Z :=
  flat_map (fun x => match fst x with EBind _ p _ => [p] | _ => [] end) t.

(** ** Symbolic execution of the loop *)

Lemma randint_eq (w : world) :
  random_randint LOW HIGH w =
  (Normal (drawn_at w 0),
   mkWorld (behead (entropy w)) (os_socket w) (os_setsockopt w) (os_bind w)
           (next_fd w) (socks w) (stdout w)
           (trace w ++ [(ERandint (drawn_at w 0), socks w)])).
Proof. reflexivity. Qed.

Lemma loop_body_eq (i : nat) (w : world) :
  socks w = [] -> loop_body i w = (verdict (fate_at w 0), after w).
Proof.
  intros Hs. unfold loop_body, bind. rewrite randint_eq, Hs.
  unfold after, steps, fate_at.
  set (p := drawn_at w 0). clearbody p.
  destruct w as [en sk so bd fd t out tr]; simpl in *.
  unfold with_closing, socket_socket, setsockopt, try_except_OSError, bind,
    sock_bind, sock_close, print, raise, continue, record, set_socks; simpl.
  destruct (sk 0%nat); simpl; [| rewrite <- app_assoc; reflexivity].
  rewrite Nat.eqb_refl; simpl.
  destruct (so 0%nat); simpl; rewrite ?Nat.eqb_refl; simpl;
    [| rewrite <- !app_assoc; reflexivity].
  destruct (bd 0%nat p); simpl; rewrite ?Nat.eqb_refl; simpl;
    rewrite <- !app_assoc; reflexivity.
Qed.

(** The world after [k] iterations, and the calls they make. *)
Lemma for_from_retry (i n : nat) (w : world) :
  socks w = [] -> fate_at w 0 = Retry ->
  for_from i (S n) loop_body w = for_from (S i) n loop_body (after w).
Proof.
  intros Hs Hf. simpl. rewrite (loop_body_eq i w Hs), Hf. reflexivity.
Qed.

Lemma for_from_stop (i n : nat) (w : world) :
  socks w = [] -> fate_at w 0 <> Retry ->
  for_from i (S n) loop_body w = (verdict (fate_at w 0), after w).
Proof.
  intros Hs Hf. simpl. rewrite (loop_body_eq i w Hs).
  destruct (fate_at w 0); simpl; try reflexivity. now elim Hf.
Qed.

Lemma socks_after (w : world) : socks (after w) = [].
Proof. reflexivity. Qed.

Lemma trace_after (w : world) : trace (after w) = trace w ++ steps w.
Proof. reflexivity. Qed.

Lemma drawn_after (w : world) (k : nat) : drawn_at (after w) k = drawn_at w (S k).
Proof. reflexivity. Qed.

Lemma fate_after (w : world) (k : nat) :
  fate_at w 0 = Retry -> fate_at (after w) k = fate_at w (S k).
Proof.
  intros Hf. unfold fate_at at 1. unfold after. rewrite Hf. reflexivity.
Qed.

Lemma stdout_after_retry (w : world) :
  fate_at w 0 <> Found -> stdout (after w) = stdout w.
Proof.
  intros Hf. unfold after; simpl. destruct (fate_at w 0); try reflexivity.
  now elim Hf.
Qed.

Lemma retries_S (k : nat) (w : world) : retries (S k) w = after (retries k w).
Proof. reflexivity. Qed.

Lemma retries_after (k : nat) (w : world) : retries k (after w) = retries (S k) w.
Proof.
  unfold retries. symmetry. apply Nat.iter_succ_r.
Qed.

Lemma retrying_le (k k' : nat) (w : world) :
  retrying k w -> (k' <= k)%nat -> retrying k' w.
Proof. intros H Hle j Hj. apply H. lia. Qed.

Lemma fate_retries (k : nat) (w : world) :
  retrying k w -> forall j, fate_at (retries k w) j = fate_at w (k + j).
Proof.
  induction k as [|k IH]; intros H j; [reflexivity|].
  assert (H' : retrying k w) by (apply (retrying_le _ _ _ H); lia).
  rewrite retries_S, fate_after; rewrite IH by assumption.
  - f_equal. lia.
  - rewrite Nat.add_0_r. apply H. lia.
Qed.

Lemma drawn_retries (k : nat) (w : world) (j : nat) :
  drawn_at (retries k w) j = drawn_at w (k + j).
Proof.
  revert j. induction k as [|k IH]; intros j; [reflexivity|].
  rewrite retries_S, drawn_after, IH. f_equal. lia.
Qed.

Lemma stdout_retries (k : nat) (w : world) :
  retrying k w -> stdout (retries k w) = stdout w.
Proof.
  induction k as [|k IH]; intros H; [reflexivity|].
  assert (H' : retrying k w) by (apply (retrying_le _ _ _ H); lia).
  rewrite retries_S, stdout_after_retry; [auto|].
  rewrite fate_retries, Nat.add_0_r, H by (assumption || lia). discriminate.
Qed.

Lemma socks_retries (k : nat) (w : world) :
  socks w = [] -> socks (retries k w) = [].
Proof. destruct k; [trivial | intros _; reflexivity]. Qed.

Lemma next_fd_retries (k : nat) (w : world) :
  retrying k w -> next_fd (retries k w) = (next_fd w + k)%nat.
Proof.
  induction k as [|k IH]; intros H; [simpl; lia|].
  assert (H' : retrying k w) by (apply (retrying_le _ _ _ H); lia).
  rewrite retries_S. unfold after at 1; simpl.
  rewrite fate_retries, Nat.add_0_r, H by (assumption || lia).
  rewrite IH by assumption. lia.
Qed.

(** The loop, unrolled over its retried iterations. *)
Lemma for_from_retries (k m i : nat) (w : world) :
  socks w = [] -> retrying k w ->
  for_from i (k + m) loop_body w = for_from (i + k) m loop_body (retries k w).
Proof.
  revert i w. induction k as [|k IH]; intros i w Hs H.
  - simpl. now rewrite Nat.add_0_r.
  - change (S k + m)%nat with (S (k + m)).
    rewrite for_from_retry by (assumption || (apply H; lia)).
    rewrite IH.
    + rewrite retries_after. f_equal. lia.
    + reflexivity.
    + intros j Hj. rewrite fate_after by (apply H; lia). apply H. lia.
Qed.

(** Either every one of the first [n] iterations is retried, or there
    is a first one that is not. *)
Lemma first_stop (n : nat) (w : world) :
  retrying n w \/
  exists k, (k < n)%nat /\ retrying k w /\ fate_at w k <> Retry.
Proof.
  induction n as [|n [IH | (k & Hk & Hr & Hf)]].
  - left. intros j Hj. lia.
  - destruct (fate_at w n) eqn:E;
      try (right; exists n; repeat split; [lia | assumption | rewrite E; discriminate]).
    left. intros j Hj. destruct (Nat.eq_dec j n) as [-> | Hne]; [assumption|].
    apply IH. lia.
  - right. exists k. repeat split; [lia | assumption | assumption].
Qed.

Lemma trace_retries (k : nat) (w : world) :
  trace (retries k w) = trace w ++ calls k w.
Proof.
  revert w. induction k as [|k IH]; intros w.
  - simpl. now rewrite app_nil_r.
  - rewrite <- retries_after, IH, trace_after. simpl. now rewrite app_assoc.
Qed.

Lemma calls_S (k : nat) (w : world) :
  calls (S k) w = calls k w ++ steps (retries k w).
Proof.
  revert w. induction k as [|k IH]; intros w.
  - simpl. now rewrite app_nil_r.
  - change (calls (S (S k)) w) with (steps w ++ calls (S k) (after w)).
    rewrite IH, retries_after. simpl. now rewrite app_assoc.
Qed.

(** The two ways the script can go. *)
Lemma probe_cases (n : nat) (w : world) :
  socks w = [] ->
  (retrying n w /\
   probe n w = (Normal tt, snd (print 0 (retries n w))))
  \/
  (exists k, (k < n)%nat /\ retrying k w /\ fate_at w k <> Retry /\
             probe n w = (verdict (fate_at w k), retries (S k) w)).
Proof.
  intros Hs. unfold probe, for_range, bind.
  destruct (first_stop n w) as [H | (k & Hk & Hr & Hf)].
  - left. split; [assumption|].
    replace n with (n + 0)%nat at 1 by lia.
    rewrite for_from_retries by assumption.
    reflexivity.
  - right. exists k. repeat split; try assumption.
    replace n with (k + S (n - S k))%nat by lia.
    rewrite for_from_retries by assumption.
    rewrite for_from_stop.
    + rewrite fate_retries, Nat.add_0_r by assumption.
      rewrite retries_S.
      destruct (fate_at w k); reflexivity.
    + now apply socks_retries.
    + rewrite fate_retries, Nat.add_0_r by assumption. exact Hf.
Qed.

(** ** What the calls of an iteration look like *)

Lemma drawn_range (w : world) (k : nat) : LOW <= drawn_at w k <= HIGH.
Proof.
  unfold drawn_at, LOW, HIGH.
  pose proof (Z.mod_pos_bound (Z.of_N (entropy w k)) (60000 - 20000 + 1)).
  lia.
Qed.

Lemma draws_app (a b : list entry) : draws (a ++ b) = draws a ++ draws b.
Proof. apply flat_map_app. Qed.

Lemma binds_app (a b : list entry) : binds (a ++ b) = binds a ++ binds b.
Proof. apply flat_map_app. Qed.

Lemma prints_app (a b : list entry) : prints (a ++ b) = prints a ++ prints b.
Proof. apply flat_map_app. Qed.

Lemma opens_app (a b : list entry) : opens (a ++ b) = opens a ++ opens b.
Proof. apply flat_map_app. Qed.

Lemma closes_app (a b : list entry) : closes (a ++ b) = closes a ++ closes b.
Proof. apply flat_map_app. Qed.

Lemma draws_steps (w : world) : draws (steps w) = [drawn_at w 0].
Proof. unfold steps. destruct (fate_at w 0); reflexivity. Qed.

Lemma binds_steps (w : world) :
  binds (steps w) =
  match fate_at w 0 with Retry => [false] | Found => [true] | _ => [] end.
Proof. unfold steps. destruct (fate_at w 0); reflexivity. Qed.

Lemma prints_steps (w : world) :
  prints (steps w) =
  match fate_at w 0 with Found => [drawn_at w 0] | _ => [] end.
Proof. unfold steps. destruct (fate_at w 0); reflexivity. Qed.

Lemma opens_closes_steps (w : world) : opens (steps w) = closes (steps w).
Proof. unfold steps. destruct (fate_at w 0); reflexivity. Qed.

Lemma length_steps (w : world) :
  List.length (steps w) =
  match fate_at w 0 with
  | Crash_socket => 2 | Crash_setsockopt => 4 | Retry => 5 | Found => 6
  end%nat.
Proof. unfold steps. destruct (fate_at w 0); reflexivity. Qed.

Lemma steps_ok (w : world) : Forall entry_ok (steps w).
Proof.
  pose proof (drawn_range w 0) as Hr.
  unfold steps. destruct (fate_at w 0);
    repeat (constructor; simpl; eauto).
Qed.

Lemma calls_ok (k : nat) (w : world) : Forall entry_ok (calls k w).
Proof.
  revert w. induction k as [|k IH]; intros w; simpl.
  - constructor.
  - apply Forall_app. split; [apply steps_ok | apply IH].
Qed.

Lemma opens_closes_calls (k : nat) (w : world) :
  opens (calls k w) = closes (calls k w).
Proof.
  revert w. induction k as [|k IH]; intros w; simpl; [reflexivity|].
  now rewrite opens_app, closes_app, opens_closes_steps, IH.
Qed.

Lemma draws_calls (k : nat) (w : world) :
  draws (calls k w) = map (drawn_at w) (seq 0 k).
Proof.
  induction k as [|k IH]; [reflexivity|].
  rewrite calls_S, draws_app, IH, draws_steps, drawn_retries, Nat.add_0_r.
  rewrite seq_S, map_app. reflexivity.
Qed.

Lemma length_calls_le (k : nat) (w : world) :
  (List.length (calls k w) <= 6 * k)%nat.
Proof.
  revert w. induction k as [|k IH]; intros w; simpl calls; [simpl; lia|].
  rewrite length_app, length_steps. specialize (IH (after w)).
  destruct (fate_at w 0); lia.
Qed.

Lemma binds_calls_le (k : nat) (w : world) :
  (List.length (binds (calls k w)) <= k)%nat.
Proof.
  revert w. induction k as [|k IH]; intros w; simpl calls; [simpl; lia|].
  rewrite binds_app, length_app, binds_steps. specialize (IH (after w)).
  destruct (fate_at w 0); simpl; lia.
Qed.

(** The calls of [k] retried iterations. *)
Lemma binds_retried (k : nat) (w : world) :
  retrying k w -> binds (calls k w) = repeat false k.
Proof.
  induction k as [|k IH]; intros H; [reflexivity|].
  rewrite calls_S, binds_app, IH by (apply (retrying_le _ _ _ H); lia).
  rewrite binds_steps, fate_retries, Nat.add_0_r, H
    by (lia || apply (retrying_le _ _ _ H); lia).
  symmetry. apply repeat_cons.
Qed.

Lemma prints_retried (k : nat) (w : world) :
  retrying k w -> prints (calls k w) = [].
Proof.
  induction k as [|k IH]; intros H; [reflexivity|].
  rewrite calls_S, prints_app, IH by (apply (retrying_le _ _ _ H); lia).
  rewrite prints_steps, fate_retries, Nat.add_0_r, H
    by (lia || apply (retrying_le _ _ _ H); lia).
  reflexivity.
Qed.

Lemma length_retried (k : nat) (w : world) :
  retrying k w -> List.length (calls k w) = (5 * k)%nat.
Proof.
  induction k as [|k IH]; intros H; [reflexivity|].
  rewrite calls_S, length_app, IH by (apply (retrying_le _ _ _ H); lia).
  rewrite length_steps, fate_retries, Nat.add_0_r, H
    by (lia || apply (retrying_le _ _ _ H); lia).
  lia.
Qed.

(** ** The two kinds of run, in full *)

Lemma probe_exhausted (n : nat) (w : world) :
  socks w = [] -> retrying n w ->
  fst (probe n w) = Normal tt /\
  trace (snd (probe n w)) = trace w ++ calls n w ++ [(EPrint 0, [])] /\
  stdout (snd (probe n w)) = (stdout w ++ py_str 0 ++ newline)%string /\
  socks (snd (probe n w)) = [].
Proof.
  intros Hs H. destruct (probe_cases n w Hs) as [[_ E] | (k & Hk & _ & Hf & _)].
  - rewrite E. unfold print, record. cbn [fst snd trace stdout socks].
    rewrite trace_retries, socks_retries, stdout_retries by assumption.
    rewrite <- app_assoc. repeat split; reflexivity.
  - elim Hf. apply H. exact Hk.
Qed.

Lemma probe_stopped (n : nat) (w : world) (k : nat) :
  socks w = [] -> (k < n)%nat -> retrying k w -> fate_at w k <> Retry ->
  fst (probe n w) = verdict (fate_at w k) /\
  trace (snd (probe n w)) = trace w ++ calls k w ++ steps (retries k w) /\
  stdout (snd (probe n w)) =
    match fate_at w k with
    | Found => (stdout w ++ py_str (drawn_at w k) ++ newline)%string
    | _ => stdout w
    end /\
  socks (snd (probe n w)) = [].
Proof.
  intros Hs Hk Hr Hf.
  destruct (probe_cases n w Hs) as [[H _] | (k' & Hk' & Hr' & Hf' & E)].
  - elim Hf. apply H. exact Hk.
  - assert (k' = k) as ->.
    { destruct (Nat.lt_trichotomy k' k) as [Hlt | [Heq | Hgt]]; [|assumption|].
      - elim Hf'. apply Hr. exact Hlt.
      - elim Hf. apply Hr'. exact Hgt. }
    rewrite E. cbn [fst snd].
    rewrite trace_retries, calls_S.
    repeat split; try reflexivity.
    rewrite retries_S. unfold after. cbn [stdout].
    rewrite fate_retries, drawn_retries, stdout_retries, Nat.add_0_r by assumption.
    destruct (fate_at w k); reflexivity.
Qed.

Lemma trace_boot (e : env) : trace (boot e) = [].
Proof. reflexivity. Qed.

Lemma stdout_boot (e : env) : stdout (boot e) = EmptyString.
Proof. reflexivity. Qed.

Lemma run_exhausted (e : env) :
  retrying 100 (boot e) ->
  fst (run e) = Normal tt /\
  history e = calls 100 (boot e) ++ [(EPrint 0, [])] /\
  output e = (py_str 0 ++ newline)%string /\
  socks (final e) = [].
Proof.
  intros H.
  destruct (probe_exhausted 100 (boot e) eq_refl H) as (A & B & C & D).
  unfold history, output, final, run, main.
  rewrite A, B, C, D, trace_boot, stdout_boot. repeat split; reflexivity.
Qed.

Lemma run_stopped (e : env) (k : nat) :
  (k < 100)%nat -> retrying k (boot e) -> plan e k <> Retry ->
  fst (run e) = verdict (plan e k) /\
  history e = calls k (boot e) ++ steps (retries k (boot e)) /\
  output e = match plan e k with
             | Found => (py_str (draw e k) ++ newline)%string
             | _ => EmptyString
             end /\
  socks (final e) = [].
Proof.
  intros Hk Hr Hf.
  destruct (probe_stopped 100 (boot e) k eq_refl Hk Hr Hf) as (A & B & C & D).
  unfold history, output, final, run, main.
  rewrite A, B, C, D, trace_boot, stdout_boot. unfold plan, draw.
  repeat split; reflexivity.
Qed.

(** Every run is of one of the two kinds. *)
Lemma run_kinds (e : env) :
  retrying 100 (boot e) \/
  exists k, (k < 100)%nat /\ retrying k (boot e) /\ plan e k <> Retry.
Proof. apply first_stop. Qed.

Lemma history_ok (e : env) : Forall entry_ok (history e).
Proof.
  destruct (run_kinds e) as [H | (k & Hk & Hr & Hf)].
  - destruct (run_exhausted e H) as (_ & -> & _).
    apply Forall_app. split; [apply calls_ok|].
    constructor; [left; split; reflexivity | constructor].
  - destruct (run_stopped e k Hk Hr Hf) as (_ & -> & _).
    apply Forall_app. split; [apply calls_ok | apply steps_ok].
Qed.

(** What an exhausted run was seen to do. *)
Lemma seen_exhausted (e : env) :
  retrying 100 (boot e) ->
  draws (history e) = map (drawn_at (boot e)) (seq 0 100) /\
  binds (history e) = repeat false 100 /\
  prints (history e) = [0] /\
  List.length (history e) = 501%nat.
Proof.
  intros H. destruct (run_exhausted e H) as (_ & -> & _).
  rewrite draws_app, binds_app, prints_app, length_app.
  rewrite draws_calls, binds_retried, prints_retried, length_retried by assumption.
  change (draws [(EPrint 0, [])]) with (@nil Z).
  change (binds [(EPrint 0, [])]) with (@nil bool).
  rewrite !app_nil_r. repeat split; reflexivity.
Qed.

(** What a run that stopped in iteration [k] was seen to do. *)
Lemma seen_stopped (e : env) (k : nat) :
  (k < 100)%nat -> retrying k (boot e) -> plan e k <> Retry ->
  draws (history e) = map (drawn_at (boot e)) (seq 0 (S k)) /\
  binds (history e) =
    repeat false k ++ match plan e k with Found => [true] | _ => [] end /\
  prints (history e) = match plan e k with Found => [draw e k] | _ => [] end /\
  (List.length (history e) <= 5 * k + 6)%nat.
Proof.
  intros Hk Hr Hf. destruct (run_stopped e k Hk Hr Hf) as (_ & -> & _).
  rewrite <- calls_S, draws_calls. rewrite calls_S.
  rewrite binds_app, prints_app, length_app.
  rewrite binds_retried, prints_retried, length_retried by assumption.
  rewrite binds_steps, prints_steps, length_steps.
  rewrite fate_retries, drawn_retries, Nat.add_0_r by assumption.
  fold (plan e k). fold (draw e k).
  repeat split; try reflexivity.
  - destruct (plan e k); try reflexivity. now elim Hf.
  - destruct (plan e k); lia.
Qed.

(** ** Printed lines *)

Lemma count_newlines_app (a b : string) :
  count_newlines (a ++ b) = (count_newlines a + count_newlines b)%nat.
Proof.
  induction a as [|c a IH]; simpl; [reflexivity|]. rewrite IH. lia.
Qed.

Lemma digits_no_newline (d : Decimal.uint) :
  count_newlines (NilEmpty.string_of_uint d) = 0%nat.
Proof. induction d; simpl; auto. Qed.

Lemma py_str_no_newline (v : Z) : count_newlines (py_str v) = 0%nat.
Proof.
  unfold py_str. destruct (Z.to_int v) as [d | d]; simpl;
    destruct d; simpl; auto using digits_no_newline.
Qed.

Lemma one_line (v : Z) : count_newlines (py_str v ++ newline) = 1%nat.
Proof.
  rewrite count_newlines_app, py_str_no_newline. reflexivity.
Qed.

(** Reading the digits back gives the number. *)
Lemma py_str_parses (v : Z) :
  option_map Z.of_int (NilZero.int_of_string (py_str v)) = Some v.
Proof.
  unfold py_str. rewrite NilZero.isi.
  - simpl. now rewrite DecimalZ.of_to.
  - destruct v; simpl; try discriminate.
    intros [= H]. now apply DecimalPos.Unsigned.to_uint_nonnil in H.
  - destruct v; simpl; try discriminate.
    intros [= H]. now apply DecimalPos.Unsigned.to_uint_nonnil in H.
Qed.

(** ** The outcome, from what was observed *)

Lemma existsb_repeat_false (n : nat) :
  existsb (fun b : bool => b) (repeat false n) = false.
Proof. induction n; simpl; auto. Qed.

Lemma status_eq (e : env) : status e = exit_status (fst (run e)).
Proof. unfold status. reflexivity. Qed.

Lemma trace_final (e : env) : trace (final e) = history e.
Proof. unfold history. reflexivity. Qed.

Lemma run_final (e : env) : run e = (fst (run e), final e).
Proof. unfold final. apply surjective_pairing. Qed.

Lemma outcome_judged (e : env) :
  (output e, status e) = judge (draws (history e)) (binds (history e)).
Proof.
  unfold judge. rewrite status_eq.
  destruct (run_kinds e) as [H | (k & Hk & Hr & Hf)].
  - destruct (run_exhausted e H) as (-> & _ & -> & _).
    destruct (seen_exhausted e H) as (_ & -> & _).
    rewrite existsb_repeat_false, repeat_length, Nat.eqb_refl. reflexivity.
  - destruct (run_stopped e k Hk Hr Hf) as (-> & _ & -> & _).
    destruct (seen_stopped e k Hk Hr Hf) as (-> & -> & _).
    rewrite existsb_app, existsb_repeat_false, length_app, repeat_length.
    rewrite seq_S, map_app. simpl map. rewrite last_last.
    assert (Hne : (k + 0 =? 100)%nat = false) by (apply Nat.eqb_neq; lia).
    destruct (plan e k); simpl; rewrite ?Hne; reflexivity.
Qed.

(** ** Sample runs, evaluated *)

Example run_all_free :
  (fst (run all_free), next_fd (final all_free), socks (final all_free),
   output all_free, history all_free)
  = (Raise (SystemExit 0), 4%nat, [], (py_str 20000 ++ newline)%string,
     [(ERandint 20000, []);
      (ESocket (Some 3%nat), [(3%nat, None)]);
      (ESetsockopt 3 true, [(3%nat, None)]);
      (EBind 3 20000 true, [(3%nat, Some (LOOPBACK, 20000))]);
      (EPrint 20000, [(3%nat, Some (LOOPBACK, 20000))]);
      (EClose 3, [])]).
Proof. vm_compute. reflexivity. Qed.

Example run_all_taken :
  (status all_taken, output all_taken, List.length (history all_taken),
   List.length (binds (history all_taken)))
  = (0, String "0" newline, 501%nat, 100%nat).
Proof. vm_compute. reflexivity. Qed.

Example run_third_free :
  (status third_free, output third_free, draws (history third_free),
   binds (history third_free))
  = (0, (py_str 20033 ++ newline)%string, [60000; 20016; 20033], [false; false; true]).
Proof. vm_compute. reflexivity. Qed.

Example run_no_socket :
  (status no_socket, output no_socket, history no_socket)
  = (1, EmptyString,
     [(ERandint 20005, []);
      (ESocket (Some 3%nat), [(3%nat, None)]);
      (ESetsockopt 3 true, [(3%nat, None)]);
      (EBind 3 20005 false, [(3%nat, None)]);
      (EClose 3, []);
      (ERandint 20005, []);
      (ESocket None, [])]).
Proof. vm_compute. reflexivity. Qed.

Example run_no_sockopt :
  (status no_sockopt, output no_sockopt, history no_sockopt)
  = (1, EmptyString,
     [(ERandint 20005, []);
      (ESocket (Some 3%nat), [(3%nat, None)]);
      (ESetsockopt 3 false, [(3%nat, None)]);
      (EClose 3, [])]).
Proof. vm_compute. reflexivity. Qed.

Example py_str_samples :
  (py_str 0, py_str 20000, py_str 60000, py_str (-7))
  = ("0", "20000", "60000", "-7")%string.
Proof. reflexivity. Qed.

(** ** Properties of every run *)

Lemma in_prints (v : Z) (t : socktable) (l : list entry) :
  In (EPrint v, t) l -> In v (prints l).
Proof.
  intros H. unfold prints. apply in_flat_map.
  exists (EPrint v, t). split; [assumption | left; reflexivity].
Qed.

Lemma holds_own_port (fd : nat) (v : Z) :
  holds_port [(fd, Some (LOOPBACK, v))] v = true.
Proof.
  unfold holds_port. simpl. now rewrite Z.eqb_refl.
Qed.

(** The print of a found port is the last call but one of the
    iteration that finds it; the close follows. *)
Lemma print_in_steps (w : world) (v : Z) (t : socktable) :
  In (EPrint v, t) (steps w) ->
  exists fd pre,
    t = [(fd, Some (LOOPBACK, v))] /\
    steps w = pre ++ [(EPrint v, t); (EClose fd, [])].
Proof.
  unfold steps. destruct (fate_at w 0); simpl; intros H;
    repeat (destruct H as [H | H]; try discriminate H); try contradiction.
  injection H as <- <-.
  eexists; eexists. split; [reflexivity|].
  rewrite <- (firstn_skipn 4) at 1. reflexivity.
Qed.

(** C1, as stated, fails: in the run where the first bind goes through,
    port 20000 is printed while descriptor 3 is still open and bound
    to it. *)
Lemma port_printed_while_bound :
  ~ (forall e v t,
        In (EPrint v, t) (history e) -> v <> 0 -> holds_port t v = false).
Proof.
  intros H.
  specialize (H all_free 20000 [(3%nat, Some (LOOPBACK, 20000))]).
  assert (Hin : In (EPrint 20000, [(3%nat, Some (LOOPBACK, 20000))])
                   (history all_free)).
  { vm_compute. do 4 right. left. reflexivity. }
  specialize (H Hin ltac:(discriminate)).
  vm_compute in H. discriminate H.
Qed.

(** C1, amended: when a nonzero port [v] is printed, the probe socket
    is still open and bound to (127.0.0.1, v); closing it is the next
    and last call of the run, so that the process holds no socket on
    [v], nor any other, when it exits. *)
Theorem port_printed_then_released (e : env) (v : Z) (t : socktable) :
  In (EPrint v, t) (history e) -> v <> 0 ->
  holds_port t v = true /\
  (exists fd pre,
      t = [(fd, Some (LOOPBACK, v))] /\
      history e = pre ++ [(EPrint v, t); (EClose fd, [])]) /\
  socks (final e) = [] /\
  holds_port (socks (final e)) v = false.
Proof.
  intros Hin Hv.
  assert (Hshape : (exists fd pre,
      t = [(fd, Some (LOOPBACK, v))] /\
      history e = pre ++ [(EPrint v, t); (EClose fd, [])]) /\
      socks (final e) = []).
  { destruct (run_kinds e) as [H | (k & Hk & Hr & Hf)].
    - destruct (run_exhausted e H) as (_ & E & _). rewrite E in Hin.
      apply in_app_or in Hin. destruct Hin as [Hin | [Hin | []]].
      + apply in_prints in Hin. rewrite prints_retried in Hin by assumption.
        contradiction.
      + injection Hin as <- _. now elim Hv.
    - destruct (run_stopped e k Hk Hr Hf) as (_ & E & _ & Hs).
      split; [|exact Hs]. rewrite E in Hin |- *.
      apply in_app_or in Hin. destruct Hin as [Hin | Hin].
      + apply in_prints in Hin. rewrite prints_retried in Hin by assumption.
        contradiction.
      + destruct (print_in_steps _ _ _ Hin) as (fd & pre & Ht & Hsteps).
        exists fd, (calls k (boot e) ++ pre). split; [exact Ht|].
        rewrite Hsteps. apply app_assoc. }
  destruct Hshape as ((fd & pre & Ht & Hh) & Hs).
  split; [rewrite Ht; apply holds_own_port|].
  split; [exists fd, pre; split; assumption|].
  split; [exact Hs | rewrite Hs; reflexivity].
Qed.

Lemma port_printed_then_released_witness :
  In (EPrint 20000, [(3%nat, Some (LOOPBACK, 20000))]) (history all_free) /\
  20000 <> 0 /\
  holds_port [(3%nat, Some (LOOPBACK, 20000))] 20000 = true /\
  (exists fd pre,
      [(3%nat, Some (LOOPBACK, 20000))] = [(fd, Some (LOOPBACK, 20000))] /\
      history all_free =
        pre ++ [(EPrint 20000, [(3%nat, Some (LOOPBACK, 20000))]); (EClose fd, [])]) /\
  socks (final all_free) = [] /\
  holds_port (socks (final all_free)) 20000 = false.
Proof.
  assert (Hin : In (EPrint 20000, [(3%nat, Some (LOOPBACK, 20000))])
                   (history all_free)).
  { vm_compute. do 4 right. left. reflexivity. }
  assert (Hv : 20000 <> 0) by lia.
  split; [exact Hin|]. split; [exact Hv|].
  exact (port_printed_then_released all_free 20000 _ Hin Hv).
Defined.

Lemma drawn_ok (l : list entry) :
  Forall entry_ok l -> Forall (fun v => LOW <= v <= HIGH) (draws l).
Proof.
  induction 1 as [|[ev t] l Hx _ IH]; simpl; [constructor|].
  destruct ev; simpl; try exact IH.
  constructor; [apply Hx | exact IH].
Qed.

Lemma printed_ok (l : list entry) :
  Forall entry_ok l -> Forall (fun v => LOW <= v <= HIGH \/ v = 0) (prints l).
Proof.
  induction 1 as [|[ev t] l Hx _ IH]; simpl; [constructor|].
  destruct ev; simpl; try exact IH.
  constructor; [|exact IH].
  destruct Hx as [[-> _] | [Hr _]]; [right; reflexivity | left; exact Hr].
Qed.

Lemma output_lines (e : env) : output e = lines (prints (history e)).
Proof.
  destruct (run_kinds e) as [H | (k & Hk & Hr & Hf)].
  - destruct (run_exhausted e H) as (_ & _ & -> & _).
    destruct (seen_exhausted e H) as (_ & _ & -> & _). reflexivity.
  - destruct (run_stopped e k Hk Hr Hf) as (_ & _ & -> & _).
    destruct (seen_stopped e k Hk Hr Hf) as (_ & _ & -> & _).
    destruct (plan e k); reflexivity.
Qed.

(** C2: every value a run prints is 0 or lies in [20000, 60000]; the
    standard output holds exactly the printed values, one per line;
    every port drawn lies in [20000, 60000]; and both ends of the
    interval are drawn in some run. *)
Theorem printed_and_drawn_in_range (e : env) :
  Forall (fun v => 20000 <= v <= 60000 \/ v = 0) (prints (history e)) /\
  output e = lines (prints (history e)) /\
  Forall (fun v => 20000 <= v <= 60000) (draws (history e)) /\
  In 20000 (draws (history all_free)) /\
  In 60000 (draws (history third_free)).
Proof.
  split; [exact (printed_ok _ (history_ok e))|].
  split; [apply output_lines|].
  split; [exact (drawn_ok _ (history_ok e))|].
  split; vm_compute; left; reflexivity.
Qed.

(** C3: when each of the 100 iterations ends in a failed bind, the run
    makes exactly 100 draws and 100 binds, prints 0 on a line of its
    own and nothing else, and ends by reaching the end of the module,
    with exit status 0. *)
Theorem exhaustion_prints_zero (e : env) :
  (forall k, (k < 100)%nat -> plan e k = Retry) ->
  List.length (draws (history e)) = 100%nat /\
  List.length (binds (history e)) = 100%nat /\
  binds (history e) = repeat false 100 /\
  prints (history e) = [0] /\
  output e = String "0" newline /\
  fst (run e) = Normal tt /\
  status e = 0.
Proof.
  intros H. change (retrying 100 (boot e)) in H.
  destruct (run_exhausted e H) as (Hr & _ & Ho & _).
  destruct (seen_exhausted e H) as (Hd & Hb & Hp & _).
  rewrite Hd, Hb, length_map, length_seq, repeat_length.
  rewrite status_eq, Hr, Ho, Hp. repeat split; reflexivity.
Qed.

Lemma exhaustion_prints_zero_witness :
  (forall k, (k < 100)%nat -> plan all_taken k = Retry) /\
  List.length (draws (history all_taken)) = 100%nat /\
  List.length (binds (history all_taken)) = 100%nat /\
  binds (history all_taken) = repeat false 100 /\
  prints (history all_taken) = [0] /\
  output all_taken = String "0" newline /\
  fst (run all_taken) = Normal tt /\
  status all_taken = 0.
Proof.
  assert (H : forall k, (k < 100)%nat -> plan all_taken k = Retry)
    by (intros k _; reflexivity).
  split; [exact H | exact (exhaustion_prints_zero all_taken H)].
Defined.

(** C4: every run ends, after at most 100 draws, at most 100 binds and
    at most 501 calls in all. *)
Theorem at_most_100_attempts (e : env) :
  exists r w,
    run e = (r, w) /\
    (List.length (binds (trace w)) <= 100)%nat /\
    (List.length (draws (trace w)) <= 100)%nat /\
    (List.length (trace w) <= 501)%nat.
Proof.
  exists (fst (run e)), (final e).
  split; [apply run_final|]. rewrite trace_final.
  destruct (run_kinds e) as [H | (k & Hk & Hr & Hf)].
  - destruct (seen_exhausted e H) as (-> & -> & _ & ->).
    rewrite length_map, length_seq, repeat_length. lia.
  - destruct (seen_stopped e k Hk Hr Hf) as (-> & -> & _ & Hl).
    rewrite length_map, length_seq, length_app, repeat_length.
    destruct (plan e k); simpl List.length; lia.
Qed.

(** [with closing(...)] leaves its socket closed, however its body ends. *)
Lemma is_open_filter (fd : nat) (t : socktable) :
  is_open fd (filter (fun x => negb (Nat.eqb (fst x) fd)) t) = false.
Proof.
  induction t as [|[fd' b] t IH]; simpl; [reflexivity|].
  destruct (Nat.eqb fd' fd) eqn:E; simpl; [exact IH|].
  now rewrite E.
Qed.

Lemma with_closing_closes (A : Type) (mk : M nat) (body : nat -> M A)
      (w w1 : world) (fd : nat) :
  mk w = (Normal fd, w1) ->
  is_open fd (socks (snd (with_closing mk body w))) = false.
Proof.
  intros E. unfold with_closing. rewrite E.
  destruct (body fd w1) as [r w2]. simpl. apply is_open_filter.
Qed.

Lemma tables_small (l : list entry) :
  Forall entry_ok l ->
  Forall (fun x => (List.length (snd x) <= 1)%nat) l /\
  Forall (fun x => match fst x with
                   | ERandint _ | EClose _ => snd x = []
                   | _ => True
                   end) l.
Proof.
  induction 1 as [|[ev t] l Hx _ [IH1 IH2]]; [split; constructor|].
  split; (constructor; [|assumption]); simpl.
  - destruct ev as [v | [fd|] | fd ok | fd p [|] | fd | v]; simpl in Hx.
    + destruct Hx as [Ht _]. rewrite Ht. simpl. lia.
    + rewrite Hx. simpl. lia.
    + rewrite Hx. simpl. lia.
    + rewrite Hx. simpl. lia.
    + destruct Hx as [Ht _]. rewrite Ht. simpl. lia.
    + destruct Hx as [Ht _]. rewrite Ht. simpl. lia.
    + rewrite Hx. simpl. lia.
    + destruct Hx as [[_ Ht] | [_ (fd & Ht)]]; rewrite Ht; simpl; lia.
  - destruct ev; simpl in Hx; try exact I; [apply Hx | exact Hx].
Qed.

(** C5: a run starts with no socket; after every call the process has
    at most one socket open; the table is empty whenever an iteration
    starts (at its draw) and after every close; the sockets opened are
    the sockets closed, in that order; and no socket is left when the
    run ends, whichever way it ends. *)
Theorem one_probe_socket_at_a_time (e : env) :
  socks (boot e) = [] /\
  Forall (fun x => (List.length (snd x) <= 1)%nat) (history e) /\
  Forall (fun x => match fst x with
                   | ERandint _ | EClose _ => snd x = []
                   | _ => True
                   end) (history e) /\
  opens (history e) = closes (history e) /\
  socks (final e) = [].
Proof.
  split; [reflexivity|].
  destruct (tables_small _ (history_ok e)) as [H1 H2].
  split; [exact H1|]. split; [exact H2|].
  destruct (run_kinds e) as [H | (k & Hk & Hr & Hf)].
  - destruct (run_exhausted e H) as (_ & -> & _ & Hs).
    split; [|exact Hs].
    rewrite opens_app, closes_app, opens_closes_calls. reflexivity.
  - destruct (run_stopped e k Hk Hr Hf) as (_ & -> & _ & Hs).
    split; [|exact Hs].
    now rewrite opens_app, closes_app, opens_closes_calls, opens_closes_steps.
Qed.

(** ** Failures *)

Lemma plan_unfold (e : env) (k : nat) :
  plan e k =
  if sock_ok e k then
    if sso_ok e k then
      if bind_ok e k (draw e k) then Found else Retry
    else Crash_setsockopt
  else Crash_socket.
Proof. reflexivity. Qed.

(** C6: an iteration whose bind fails ends by [continue], not by an
    exception: the socket is closed right after the failed bind,
    nothing is written, and the loop goes on with the next iteration
    from there.  And a run in which no call other than bind fails ends
    with status 0 and one line of output, however many binds fail. *)
Theorem bind_failure_handled_locally :
  (forall (i n : nat) (w : world),
      socks w = [] ->
      os_socket w 0%nat = true ->
      os_setsockopt w 0%nat = true ->
      os_bind w 0%nat (drawn_at w 0) = false ->
      fst (loop_body i w) = Continue /\
      trace (snd (loop_body i w)) =
        trace w ++
        [(ERandint (drawn_at w 0), []);
         (ESocket (Some (next_fd w)), [(next_fd w, None)]);
         (ESetsockopt (next_fd w) true, [(next_fd w, None)]);
         (EBind (next_fd w) (drawn_at w 0) false, [(next_fd w, None)]);
         (EClose (next_fd w), [])] /\
      socks (snd (loop_body i w)) = [] /\
      stdout (snd (loop_body i w)) = stdout w /\
      for_from i (S n) loop_body w =
        for_from (S i) n loop_body (snd (loop_body i w)))
  /\
  (forall e : env,
      (forall k, (k < 100)%nat -> sock_ok e k = true /\ sso_ok e k = true) ->
      status e = 0 /\
      fst (run e) <> Raise OSError /\
      exists v, output e = (py_str v ++ newline)%string).
Proof.
  split.
  - intros i n w Hs Hsk Hso Hbd.
    assert (Hf : fate_at w 0 = Retry)
      by (unfold fate_at; rewrite Hsk, Hso, Hbd; reflexivity).
    rewrite (for_from_retry i n w Hs Hf), (loop_body_eq i w Hs), Hf.
    cbn [fst snd verdict]. unfold after, steps. rewrite Hf.
    cbn [trace socks stdout]. repeat split; reflexivity.
  - intros e Hok. rewrite status_eq.
    destruct (run_kinds e) as [H | (k & Hk & Hr & Hf)].
    + destruct (run_exhausted e H) as (-> & _ & -> & _).
      repeat split; [discriminate | exists 0; reflexivity].
    + destruct (run_stopped e k Hk Hr Hf) as (-> & _ & -> & _).
      destruct (Hok k Hk) as [Hsk Hso].
      rewrite plan_unfold, Hsk, Hso in Hf |- *.
      destruct (bind_ok e k (draw e k)); [|now elim Hf].
      repeat split; [discriminate | exists (draw e k); reflexivity].
Qed.

Lemma bind_failure_handled_locally_witness :
  (socks (boot all_taken) = [] /\
   os_socket (boot all_taken) 0%nat = true /\
   os_setsockopt (boot all_taken) 0%nat = true /\
   os_bind (boot all_taken) 0%nat (drawn_at (boot all_taken) 0) = false /\
   fst (loop_body 0 (boot all_taken)) = Continue /\
   socks (snd (loop_body 0 (boot all_taken))) = [] /\
   stdout (snd (loop_body 0 (boot all_taken))) = stdout (boot all_taken))
  /\
  ((forall k, (k < 100)%nat ->
              sock_ok third_free k = true /\ sso_ok third_free k = true) /\
   status third_free = 0 /\
   fst (run third_free) <> Raise OSError).
Proof.
  split.
  - destruct (proj1 bind_failure_handled_locally 0%nat 0%nat (boot all_taken)
                eq_refl eq_refl eq_refl eq_refl) as (H1 & _ & H3 & H4 & _).
    repeat split; assumption.
  - assert (H : forall k, (k < 100)%nat ->
                sock_ok third_free k = true /\ sso_ok third_free k = true)
      by (intros k _; split; reflexivity).
    destruct (proj2 bind_failure_handled_locally third_free H) as (H1 & H2 & _).
    repeat split; assumption.
Defined.

(** ** Completed runs *)

Lemma not_in_repeat_false (n : nat) : ~ In true (repeat false n).
Proof. intros H. apply repeat_spec in H. discriminate H. Qed.

(** The three kinds of run, with what tells them apart in the trace. *)
Lemma kinds_seen (e : env) :
  (retrying 100 (boot e) /\ exhausted e /\ ~ found e)
  \/
  (exists k, (k < 100)%nat /\ retrying k (boot e) /\ plan e k = Found /\
             found e /\ ~ exhausted e)
  \/
  (exists k, (k < 100)%nat /\ retrying k (boot e) /\
             (plan e k = Crash_socket \/ plan e k = Crash_setsockopt) /\
             ~ found e /\ ~ exhausted e).
Proof.
  unfold found, exhausted.
  destruct (run_kinds e) as [H | (k & Hk & Hr & Hf)].
  - left. destruct (seen_exhausted e H) as (_ & -> & _).
    repeat split; [assumption | apply not_in_repeat_false].
  - right. destruct (seen_stopped e k Hk Hr Hf) as (_ & -> & _).
    destruct (plan e k) eqn:E.
    + right. exists k. rewrite app_nil_r.
      repeat split; try assumption; [now left | apply not_in_repeat_false |].
      intros H. apply (f_equal (@List.length bool)) in H.
      rewrite !repeat_length in H. lia.
    + right. exists k. rewrite app_nil_r.
      repeat split; try assumption; [now right | apply not_in_repeat_false |].
      intros H. apply (f_equal (@List.length bool)) in H.
      rewrite !repeat_length in H. lia.
    + now elim Hf.
    + left. exists k. repeat split; try assumption.
      * apply in_or_app. right. left. reflexivity.
      * intros H. apply (not_in_repeat_false 100). rewrite <- H.
        apply in_or_app. right. left. reflexivity.
Qed.

(** C7: a run that found a port, or exhausted its 100 attempts, exits
    with status 0: through [SystemExit(0)] when a port was found, by
    reaching the end of the module otherwise. *)
Theorem completed_run_exits_zero (e : env) :
  found e \/ exhausted e ->
  status e = 0 /\
  (found e -> fst (run e) = Raise (SystemExit 0)) /\
  (exhausted e -> fst (run e) = Normal tt).
Proof.
  intros Hc. rewrite status_eq.
  destruct (kinds_seen e)
    as [(H & Hx & Hnf) | [(k & Hk & Hr & Hp & Hfd & Hnx)
                         | (k & Hk & Hr & Hp & Hnf & Hnx)]].
  - destruct (run_exhausted e H) as (-> & _).
    split; [reflexivity|].
    split; [intros Hfd; now elim Hnf | intros _; reflexivity].
  - assert (Hf : plan e k <> Retry) by (rewrite Hp; discriminate).
    destruct (run_stopped e k Hk Hr Hf) as (-> & _). rewrite Hp.
    split; [reflexivity|].
    split; [intros _; reflexivity | intros Hx; now elim Hnx].
  - destruct Hc as [Hfd | Hx]; [now elim Hnf | now elim Hnx].
Qed.

Lemma completed_run_exits_zero_witness :
  (found third_free \/ exhausted third_free) /\
  status third_free = 0 /\
  (found third_free -> fst (run third_free) = Raise (SystemExit 0)) /\
  (exhausted third_free -> fst (run third_free) = Normal tt).
Proof.
  assert (H : found third_free \/ exhausted third_free).
  { left. unfold found. vm_compute. do 2 right. left. reflexivity. }
  split; [exact H | exact (completed_run_exits_zero third_free H)].
Defined.

(** C8: a run that found a port, or exhausted its 100 attempts, makes
    one print; standard output is the decimal digits of the printed
    value followed by a newline, and holds no other line end; the value
    is the last port drawn when a port was found, and 0 otherwise. *)
Theorem completed_run_prints_one_line (e : env) :
  found e \/ exhausted e ->
  exists v,
    prints (history e) = [v] /\
    output e = (py_str v ++ newline)%string /\
    count_newlines (output e) = 1%nat /\
    option_map Z.of_int (NilZero.int_of_string (py_str v)) = Some v /\
    ((found e /\ v = last (draws (history e)) 0) \/ (exhausted e /\ v = 0)).
Proof.
  intros Hc.
  destruct (kinds_seen e)
    as [(H & Hx & Hnf) | [(k & Hk & Hr & Hp & Hfd & Hnx)
                         | (k & Hk & Hr & Hp & Hnf & Hnx)]].
  - exists 0.
    destruct (run_exhausted e H) as (_ & _ & -> & _).
    destruct (seen_exhausted e H) as (_ & _ & -> & _).
    split; [reflexivity|]. split; [reflexivity|].
    split; [apply one_line|]. split; [apply py_str_parses|].
    right. split; [assumption | reflexivity].
  - exists (draw e k).
    assert (Hf : plan e k <> Retry) by (rewrite Hp; discriminate).
    destruct (run_stopped e k Hk Hr Hf) as (_ & _ & -> & _).
    destruct (seen_stopped e k Hk Hr Hf) as (-> & _ & -> & _).
    rewrite Hp.
    split; [reflexivity|]. split; [reflexivity|].
    split; [apply one_line|]. split; [apply py_str_parses|].
    left. split; [assumption|].
    rewrite seq_S, map_app. simpl map. rewrite last_last. reflexivity.
  - destruct Hc as [Hfd | Hx]; [now elim Hnf | now elim Hnx].
Qed.

Lemma completed_run_prints_one_line_witness :
  (found all_free \/ exhausted all_free) /\
  exists v,
    prints (history all_free) = [v] /\
    output all_free = (py_str v ++ newline)%string /\
    count_newlines (output all_free) = 1%nat /\
    option_map Z.of_int (NilZero.int_of_string (py_str v)) = Some v /\
    ((found all_free /\ v = last (draws (history all_free)) 0) \/
     (exhausted all_free /\ v = 0)).
Proof.
  assert (H : found all_free \/ exhausted all_free).
  { left. unfold found. vm_compute. left. reflexivity. }
  split; [exact H | exact (completed_run_prints_one_line all_free H)].
Defined.

(** C9: when socket() or setsockopt() raises in iteration [k], after
    [k] iterations that each ended in a failed bind, the OSError leaves
    the loop and the program: the run ends there with an uncaught
    OSError and exit status 1, having printed nothing, made [k + 1]
    draws and [k] binds, and with the socket, if it was opened,
    closed. *)
Theorem other_failures_propagate (e : env) (k : nat) :
  (k < 100)%nat ->
  (forall j, (j < k)%nat -> plan e j = Retry) ->
  plan e k = Crash_socket \/ plan e k = Crash_setsockopt ->
  fst (run e) = Raise OSError /\
  status e = 1 /\
  output e = EmptyString /\
  prints (history e) = [] /\
  List.length (draws (history e)) = S k /\
  binds (history e) = repeat false k /\
  opens (history e) = closes (history e) /\
  socks (final e) = [].
Proof.
  intros Hk Hr Hp. change (retrying k (boot e)) in Hr.
  assert (Hf : plan e k <> Retry) by (destruct Hp as [-> | ->]; discriminate).
  rewrite status_eq.
  destruct (run_stopped e k Hk Hr Hf) as (-> & Hh & -> & Hs).
  destruct (seen_stopped e k Hk Hr Hf) as (-> & -> & -> & _).
  rewrite length_map, length_seq, Hh, opens_app, closes_app,
    opens_closes_calls, opens_closes_steps.
  destruct Hp as [-> | ->]; rewrite app_nil_r; repeat split; assumption.
Qed.

Lemma other_failures_propagate_witness :
  (1 < 100)%nat /\
  (forall j, (j < 1)%nat -> plan no_socket j = Retry) /\
  (plan no_socket 1 = Crash_socket \/ plan no_socket 1 = Crash_setsockopt) /\
  fst (run no_socket) = Raise OSError /\
  status no_socket = 1 /\
  output no_socket = EmptyString /\
  prints (history no_socket) = [] /\
  List.length (draws (history no_socket)) = 2%nat /\
  binds (history no_socket) = repeat false 1 /\
  opens (history no_socket) = closes (history no_socket) /\
  socks (final no_socket) = [].
Proof.
  assert (H1 : (1 < 100)%nat) by lia.
  assert (H2 : forall j, (j < 1)%nat -> plan no_socket j = Retry).
  { intros j Hj. assert (j = 0%nat) as -> by lia. reflexivity. }
  assert (H3 : plan no_socket 1 = Crash_socket \/
               plan no_socket 1 = Crash_setsockopt) by (left; reflexivity).
  split; [exact H1|]. split; [exact H2|]. split; [exact H3|].
  exact (other_failures_propagate no_socket 1 H1 H2 H3).
Defined.

(** ** Determinism *)

(** C10: two runs in which the same ports were drawn and the binds had
    the same outcomes print the same output and exit with the same
    status, whatever else differs between their worlds. *)
Theorem same_observations_same_outcome (e1 e2 : env) :
  draws (history e1) = draws (history e2) ->
  binds (history e1) = binds (history e2) ->
  output e1 = output e2 /\ status e1 = status e2.
Proof.
  intros Hd Hb.
  pose proof (outcome_judged e1) as H1.
  pose proof (outcome_judged e2) as H2.
  rewrite Hd, Hb, <- H2 in H1.
  injection H1 as Ho Hs. split; assumption.
Qed.

Lemma same_observations_same_outcome_witness :
  draws (history no_sockopt) = draws (history never_a_socket) /\
  binds (history no_sockopt) = binds (history never_a_socket) /\
  output no_sockopt = output never_a_socket /\
  status no_sockopt = status never_a_socket.
Proof.
  assert (Hd : draws (history no_sockopt) = draws (history never_a_socket))
    by (vm_compute; reflexivity).
  assert (Hb : binds (history no_sockopt) = binds (history never_a_socket))
    by (vm_compute; reflexivity).
  split; [exact Hd|]. split; [exact Hb|].
  exact (same_observations_same_outcome no_sockopt never_a_socket Hd Hb).
Defined.

(** ** Further properties of the script *)

(** *** The port that is reported *)

(** X1 (lines 6-16): the run reports the port of the first iteration
    whose bind goes through: it prints that port and nothing else,
    exits with status 0 through [SystemExit(0)], and has made no draw
    and no bind beyond that iteration. *)
Theorem first_success_reported (e : env) (k : nat) :
  (k < 100)%nat ->
  (forall j, (j < k)%nat -> plan e j = Retry) ->
  plan e k = Found ->
  fst (run e) = Raise (SystemExit 0) /\
  status e = 0 /\
  output e = (py_str (draw e k) ++ newline)%string /\
  prints (history e) = [draw e k] /\
  draws (history e) = map (draw e) (seq 0 (S k)) /\
  binds (history e) = repeat false k ++ [true].
Proof.
  intros Hk Hr Hp. change (retrying k (boot e)) in Hr.
  assert (Hf : plan e k <> Retry) by (rewrite Hp; discriminate).
  rewrite status_eq.
  destruct (run_stopped e k Hk Hr Hf) as (-> & _ & -> & _).
  destruct (seen_stopped e k Hk Hr Hf) as (-> & -> & -> & _).
  rewrite Hp. repeat split; reflexivity.
Qed.

Lemma first_success_reported_witness :
  (2 < 100)%nat /\
  (forall j, (j < 2)%nat -> plan third_free j = Retry) /\
  plan third_free 2 = Found /\
  fst (run third_free) = Raise (SystemExit 0) /\
  status third_free = 0 /\
  output third_free = (py_str (draw third_free 2) ++ newline)%string /\
  prints (history third_free) = [draw third_free 2] /\
  draws (history third_free) = map (draw third_free) (seq 0 3) /\
  binds (history third_free) = repeat false 2 ++ [true].
Proof.
  assert (H1 : (2 < 100)%nat) by lia.
  assert (H2 : forall j, (j < 2)%nat -> plan third_free j = Retry).
  { intros j Hj. destruct j as [|[|j]]; [reflexivity | reflexivity | lia]. }
  assert (H3 : plan third_free 2 = Found) by reflexivity.
  split; [exact H1|]. split; [exact H2|]. split; [exact H3|].
  exact (first_success_reported third_free 2 H1 H2 H3).
Defined.

(** X2 (lines 7, 14, 16): the sentinel cannot be mistaken for a port.
    A run prints exactly 0 if and only if its 100 binds all failed, and
    it found a port if and only if it prints exactly one value, which
    then lies in [20000, 60000]. *)
Theorem zero_means_exhausted (e : env) :
  (prints (history e) = [0] <-> exhausted e) /\
  (found e <->
   exists v, prints (history e) = [v] /\ 20000 <= v <= 60000).
Proof.
  destruct (kinds_seen e)
    as [(H & Hx & Hnf) | [(k & Hk & Hr & Hp & Hfd & Hnx)
                         | (k & Hk & Hr & Hp & Hnf & Hnx)]].
  - destruct (seen_exhausted e H) as (_ & _ & -> & _).
    split; [split; [intros _; exact Hx | reflexivity]|].
    split; [intros Hfd; now elim Hnf|].
    intros (v & Hv & Hr). injection Hv as <-. lia.
  - assert (Hf : plan e k <> Retry) by (rewrite Hp; discriminate).
    destruct (seen_stopped e k Hk Hr Hf) as (_ & _ & -> & _). rewrite Hp.
    pose proof (drawn_range (boot e) k) as Hrange. fold (draw e k) in Hrange.
    unfold LOW, HIGH in Hrange.
    split; [split; [|intros Hx; now elim Hnx]|].
    + intros Hz. injection Hz as Hz. lia.
    + split; [intros _; exists (draw e k); split; [reflexivity | exact Hrange]
             | intros _; exact Hfd].
  - assert (Hf : plan e k <> Retry) by (destruct Hp as [-> | ->]; discriminate).
    destruct (seen_stopped e k Hk Hr Hf) as (_ & _ & -> & _).
    assert (Hnone : match plan e k with Found => [draw e k] | _ => [] end = [])
      by (destruct Hp as [-> | ->]; reflexivity).
    rewrite Hnone.
    split; [split; [discriminate | intros Hx; now elim Hnx]|].
    split; [intros Hfd; now elim Hnf | intros (v & Hv & _); discriminate Hv].
Qed.

(** *** Exit status and output together *)

Lemma line_not_empty (v : Z) : (py_str v ++ newline)%string <> EmptyString.
Proof.
  intros H. pose proof (one_line v) as H1. rewrite H in H1. discriminate H1.
Qed.

(** X3 (lines 13-16): the exit status is 0 or 1; it is 0 exactly for
    the runs that found a port or exhausted their attempts; it is 1
    exactly when nothing was written to standard output; and no run
    prints more than once. *)
Theorem status_and_output (e : env) :
  (status e = 0 \/ status e = 1) /\
  (status e = 0 <-> found e \/ exhausted e) /\
  (status e = 1 <-> output e = EmptyString) /\
  (List.length (prints (history e)) <= 1)%nat.
Proof.
  rewrite !status_eq.
  destruct (kinds_seen e)
    as [(H & Hx & Hnf) | [(k & Hk & Hr & Hp & Hfd & Hnx)
                         | (k & Hk & Hr & Hp & Hnf & Hnx)]].
  - destruct (run_exhausted e H) as (-> & _ & -> & _).
    destruct (seen_exhausted e H) as (_ & _ & -> & _).
    split; [left; reflexivity|].
    split; [split; [intros _; right; exact Hx | reflexivity]|].
    split; [|simpl; lia].
    split; [discriminate | intros Ho; now apply line_not_empty in Ho].
  - assert (Hf : plan e k <> Retry) by (rewrite Hp; discriminate).
    destruct (run_stopped e k Hk Hr Hf) as (-> & _ & -> & _).
    destruct (seen_stopped e k Hk Hr Hf) as (_ & _ & -> & _). rewrite Hp.
    split; [left; reflexivity|].
    split; [split; [intros _; left; exact Hfd | reflexivity]|].
    split; [|simpl; lia].
    split; [discriminate | intros Ho; now apply line_not_empty in Ho].
  - assert (Hf : plan e k <> Retry) by (destruct Hp as [-> | ->]; discriminate).
    destruct (run_stopped e k Hk Hr Hf) as (-> & _ & -> & _).
    destruct (seen_stopped e k Hk Hr Hf) as (_ & _ & -> & _).
    destruct Hp as [-> | ->]; cbn [verdict exit_status];
      (split; [right; reflexivity|];
       split; [split; [discriminate | intros [Hfd | Hx];
                                      [now elim Hnf | now elim Hnx]]|];
       split; [split; reflexivity | simpl; lia]).
Qed.

(** *** The ports the process holds *)

Lemma holds_port_bound (fd : nat) (q p : Z) :
  holds_port [(fd, Some (LOOPBACK, q))] p = true -> q = p.
Proof.
  unfold holds_port. simpl. rewrite orb_false_r. apply Z.eqb_eq.
Qed.

Lemma steps_unbound (w : world) (x : entry) (p : Z) :
  fate_at w 0 <> Found -> In x (steps w) -> holds_port (snd x) p = false.
Proof.
  intros Hf. unfold steps. destruct (fate_at w 0); simpl; intros H;
    try (now elim Hf);
    repeat (destruct H as [<- | H]; [reflexivity|]); contradiction.
Qed.

Lemma calls_unbound (k : nat) (w : world) (x : entry) (p : Z) :
  retrying k w -> In x (calls k w) -> holds_port (snd x) p = false.
Proof.
  induction k as [|k IH]; intros H Hin; [contradiction|].
  rewrite calls_S in Hin. apply in_app_or in Hin. destruct Hin as [Hin | Hin].
  - apply IH; [apply (retrying_le _ _ _ H); lia | exact Hin].
  - apply (steps_unbound (retries k w)); [|exact Hin].
    rewrite fate_retries, Nat.add_0_r, H
      by (lia || apply (retrying_le _ _ _ H); lia).
    discriminate.
Qed.

Lemma steps_found_bound (w : world) (x : entry) (p : Z) :
  fate_at w 0 = Found -> In x (steps w) -> holds_port (snd x) p = true ->
  p = drawn_at w 0 /\ snd x = [(next_fd w, Some (LOOPBACK, p))].
Proof.
  intros Hf. unfold steps. rewrite Hf.
  generalize (drawn_at w 0) (next_fd w). intros q fd H Hp.
  assert (Hq : snd x = [(fd, Some (LOOPBACK, q))]).
  { simpl in H.
    repeat (destruct H as [<- | H];
            [first [discriminate Hp | reflexivity]|]).
    contradiction. }
  rewrite Hq in Hp. apply holds_port_bound in Hp. subst q.
  split; [reflexivity | exact Hq].
Qed.

(** X4 (lines 8-15): whenever, after any call of any run, the process
    holds a socket bound to a port [p] on the loopback address, the run
    is one that found a port, [p] is the port it prints, [p] lies in
    [20000, 60000], and that socket is the only one open.  A run that
    finds no port never holds one. *)
Theorem only_reported_port_held (e : env) (x : entry) (p : Z) :
  In x (history e) ->
  holds_port (snd x) p = true ->
  found e /\
  prints (history e) = [p] /\
  20000 <= p <= 60000 /\
  exists fd, snd x = [(fd, Some (LOOPBACK, p))].
Proof.
  intros Hin Hp.
  destruct (kinds_seen e)
    as [(H & Hx & Hnf) | [(k & Hk & Hr & Hpl & Hfd & Hnx)
                         | (k & Hk & Hr & Hpl & Hnf & Hnx)]].
  - destruct (run_exhausted e H) as (_ & E & _). rewrite E in Hin.
    apply in_app_or in Hin. destruct Hin as [Hin | [<- | []]].
    + rewrite (calls_unbound 100 (boot e) x p H Hin) in Hp. discriminate Hp.
    + discriminate Hp.
  - assert (Hf : plan e k <> Retry) by (rewrite Hpl; discriminate).
    destruct (run_stopped e k Hk Hr Hf) as (_ & E & _).
    destruct (seen_stopped e k Hk Hr Hf) as (_ & _ & -> & _). rewrite Hpl.
    rewrite E in Hin. apply in_app_or in Hin. destruct Hin as [Hin | Hin].
    + rewrite (calls_unbound k (boot e) x p Hr Hin) in Hp. discriminate Hp.
    + assert (Hfound : fate_at (retries k (boot e)) 0 = Found)
        by (rewrite fate_retries, Nat.add_0_r by assumption; exact Hpl).
      destruct (steps_found_bound _ x p Hfound Hin Hp) as [Hd Ht].
      rewrite drawn_retries, Nat.add_0_r in Hd. fold (draw e k) in Hd.
      pose proof (drawn_range (boot e) k) as Hrange. fold (draw e k) in Hrange.
      unfold LOW, HIGH in Hrange. rewrite <- Hd in *.
      repeat split; try assumption; try lia.
      eexists. exact Ht.
  - assert (Hf : plan e k <> Retry) by (destruct Hpl as [-> | ->]; discriminate).
    destruct (run_stopped e k Hk Hr Hf) as (_ & E & _).
    rewrite E in Hin. apply in_app_or in Hin. destruct Hin as [Hin | Hin].
    + rewrite (calls_unbound k (boot e) x p Hr Hin) in Hp. discriminate Hp.
    + rewrite (steps_unbound (retries k (boot e)) x p) in Hp;
        [discriminate Hp | | exact Hin].
      rewrite fate_retries, Nat.add_0_r by assumption. fold (plan e k).
      destruct Hpl as [-> | ->]; discriminate.
Qed.

Lemma only_reported_port_held_witness :
  In (EBind 5 20033 true, [(5%nat, Some (LOOPBACK, 20033))]) (history third_free) /\
  holds_port (snd (EBind 5 20033 true, [(5%nat, Some (LOOPBACK, 20033))])) 20033 = true /\
  found third_free /\
  prints (history third_free) = [20033] /\
  20000 <= 20033 <= 60000 /\
  exists fd,
    snd (EBind 5 20033 true, [(5%nat, Some (LOOPBACK, 20033))]) =
    [(fd, Some (LOOPBACK, 20033))].
Proof.
  assert (Hin : In (EBind 5 20033 true, [(5%nat, Some (LOOPBACK, 20033))])
                   (history third_free)).
  { vm_compute. do 13 right. left. reflexivity. }
  assert (Hp : holds_port
                 (snd (EBind 5 20033 true, [(5%nat, Some (LOOPBACK, 20033))]))
                 20033 = true) by reflexivity.
  split; [exact Hin|]. split; [exact Hp|].
  exact (only_reported_port_held third_free _ 20033 Hin Hp).
Defined.

(** *** The ports that are tried *)

Lemma tried_app (a b : list entry) : tried (a ++ b) = tried a ++ tried b.
Proof. apply flat_map_app. Qed.

Lemma tried_steps (w : world) :
  tried (steps w) =
  match fate_at w 0 with Retry | Found => [drawn_at w 0] | _ => [] end.
Proof. unfold steps. destruct (fate_at w 0); reflexivity. Qed.

Lemma tried_retried (k : nat) (w : world) :
  retrying k w -> tried (calls k w) = map (drawn_at w) (seq 0 k).
Proof.
  induction k as [|k IH]; intros H; [reflexivity|].
  rewrite calls_S, tried_app, IH by (apply (retrying_le _ _ _ H); lia).
  rewrite tried_steps, fate_retries, drawn_retries, Nat.add_0_r, H
    by (lia || apply (retrying_le _ _ _ H); lia).
  rewrite seq_S, map_app. reflexivity.
Qed.

Lemma tried_ok (l : list entry) :
  Forall entry_ok l -> Forall (fun p => LOW <= p <= HIGH) (tried l).
Proof.
  induction 1 as [|[ev t] l Hx _ IH]; simpl; [constructor|].
  destruct ev as [v | r | fd ok | fd p [|] | fd | v]; simpl; try exact IH;
    (constructor; [apply Hx | exact IH]).
Qed.

Lemma loopback_only (l : list entry) :
  Forall entry_ok l ->
  Forall (fun x => Forall (fun s => match snd s with
                                    | Some (a, _) => a = LOOPBACK
                                    | None => True
                                    end) (snd x)) l.
Proof.
  induction 1 as [|[ev t] l Hx _ IH]; constructor; [|exact IH]. simpl.
  destruct ev as [v | [fd|] | fd ok | fd p [|] | fd | v]; simpl in Hx.
  - destruct Hx as [Ht _]. rewrite Ht. constructor.
  - rewrite Hx. repeat constructor.
  - rewrite Hx. constructor.
  - rewrite Hx. repeat constructor.
  - destruct Hx as [Ht _]. rewrite Ht. repeat constructor.
  - destruct Hx as [Ht _]. rewrite Ht. repeat constructor.
  - rewrite Hx. constructor.
  - destruct Hx as [[_ Ht] | [_ (fd & Ht)]]; rewrite Ht; repeat constructor.
Qed.

(** X5 (lines 7-11): a bind is only ever attempted on the port drawn
    in the same iteration: the ports tried are the ports drawn, in
    order, less the last draw when the run ended before its bind.  So
    every port tried lies in [20000, 60000], and any socket the
    process has bound is bound on 127.0.0.1. *)
Theorem binds_only_drawn_ports (e : env) :
  tried (history e) =
    firstn (List.length (binds (history e))) (draws (history e)) /\
  Forall (fun p => 20000 <= p <= 60000) (tried (history e)) /\
  Forall (fun x => Forall (fun s => match snd s with
                                    | Some (a, _) => a = LOOPBACK
                                    | None => True
                                    end) (snd x)) (history e).
Proof.
  split; [|split; [exact (tried_ok _ (history_ok e))
                  | exact (loopback_only _ (history_ok e))]].
  destruct (run_kinds e) as [H | (k & Hk & Hr & Hf)].
  - destruct (seen_exhausted e H) as (-> & -> & _).
    destruct (run_exhausted e H) as (_ & -> & _).
    rewrite tried_app, tried_retried, app_nil_r by assumption.
    rewrite firstn_all2; [reflexivity|].
    rewrite length_map, length_seq, repeat_length. lia.
  - destruct (seen_stopped e k Hk Hr Hf) as (-> & -> & _).
    destruct (run_stopped e k Hk Hr Hf) as (_ & -> & _).
    rewrite tried_app, tried_retried, tried_steps by assumption.
    rewrite fate_retries, drawn_retries, Nat.add_0_r by assumption.
    fold (plan e k). rewrite length_app, repeat_length, seq_S, map_app.
    destruct (plan e k); simpl List.length; simpl map.
    + rewrite Nat.add_0_r, app_nil_r, firstn_app, length_map, length_seq.
      rewrite Nat.sub_diag, firstn_all2 by (rewrite length_map, length_seq; lia).
      simpl. now rewrite app_nil_r.
    + rewrite Nat.add_0_r, app_nil_r, firstn_app, length_map, length_seq.
      rewrite Nat.sub_diag, firstn_all2 by (rewrite length_map, length_seq; lia).
      simpl. now rewrite app_nil_r.
    + now elim Hf.
    + rewrite firstn_all2; [reflexivity|].
      rewrite length_app, length_map, length_seq. simpl. lia.
Qed.

(** *** One iteration, from any socket table *)

Lemma filter_fresh (fd : nat) (t : socktable) :
  is_open fd t = false ->
  filter (fun x => negb (Nat.eqb (fst x) fd)) t = t.
Proof.
  induction t as [|[fd' b] t IH]; simpl; [reflexivity|]. intros H.
  apply orb_false_iff in H. destruct H as [H1 H2].
  rewrite H1. simpl. now rewrite IH.
Qed.

Lemma set_binding_fresh (fd : nat) (b : binding) (t : socktable) :
  is_open fd t = false -> set_binding fd b t = t.
Proof.
  induction t as [|[fd' b'] t IH]; simpl; [reflexivity|]. intros H.
  apply orb_false_iff in H. destruct H as [H1 H2].
  rewrite H1. now rewrite IH.
Qed.

(** X6 (lines 7-15): an iteration leaves the table of open sockets
    exactly as it found it, whichever way it ends and whatever sockets
    the process already had open, provided the descriptor the kernel
    hands out is not one already in the table. *)
Theorem iteration_restores_socket_table (i : nat) (w : world) :
  is_open (next_fd w) (socks w) = false ->
  socks (snd (loop_body i w)) = socks w.
Proof.
  intros Hfresh. unfold loop_body, bind. rewrite randint_eq.
  set (p := drawn_at w 0). clearbody p.
  destruct w as [en sk so bd fd t out tr]; simpl in *.
  unfold with_closing, socket_socket, setsockopt, try_except_OSError, bind,
    sock_bind, sock_close, print, raise, continue, record, set_socks; simpl.
  destruct (sk 0%nat); simpl; [|reflexivity].
  rewrite Nat.eqb_refl; simpl.
  destruct (so 0%nat); simpl; rewrite ?Nat.eqb_refl; simpl;
    [|now apply filter_fresh].
  destruct (bd 0%nat p); simpl; rewrite ?Nat.eqb_refl; simpl;
    [|now apply filter_fresh].
  fold (set_binding fd (Some (LOOPBACK, p)) t).
  rewrite set_binding_fresh by assumption. now apply filter_fresh.
Qed.

Lemma iteration_restores_socket_table_witness :
  is_open (next_fd (set_socks [(7%nat, Some (LOOPBACK, 8080))] (boot all_free)))
          (socks (set_socks [(7%nat, Some (LOOPBACK, 8080))] (boot all_free)))
    = false /\
  socks (snd (loop_body 0 (set_socks [(7%nat, Some (LOOPBACK, 8080))] (boot all_free))))
    = socks (set_socks [(7%nat, Some (LOOPBACK, 8080))] (boot all_free)).
Proof.
  assert (H : is_open
                (next_fd (set_socks [(7%nat, Some (LOOPBACK, 8080))] (boot all_free)))
                (socks (set_socks [(7%nat, Some (LOOPBACK, 8080))] (boot all_free)))
              = false) by reflexivity.
  split; [exact H|].
  exact (iteration_restores_socket_table 0 _ H).
Defined.
